(** * Rig documentation site: the theme, the site configuration and one page

    The repository configures a documentation-site generator: a theme
    configuration ([theme.config.tsx]), a site configuration (the generator's
    plugin options and the Next configuration) and content pages
    ([pages/docs/0_quickstart.mdx]).  The development embeds these three files
    as Rocq values, gives the few JavaScript and CSS operations they rely on an
    executable meaning, and states the properties of the site over them. *)

From Stdlib Require Import ZArith List String Ascii Bool Lia.
From Stdlib Require Import Numbers.DecimalString Numbers.DecimalZ.
Import ListNotations.
Open Scope string_scope.

(** ** JavaScript values and built-ins used by the sources *)
Module Js.

(** [s.startsWith(p)]. *)
Definition startsWith (s p : string) : bool := String.prefix p s.

(** [s.includes(p)]: [p] is a prefix of some suffix of [s]. *)
Fixpoint includes (s p : string) : bool :=
  String.prefix p s
  || match s with
     | EmptyString => false
     | String _ s' => includes s' p
     end.

(** The characters of a string, in order. *)
Fixpoint chars (s : string) : list ascii :=
  match s with
  | EmptyString => []
  | String c s' => c :: chars s'
  end.

Definition hasChar (c : ascii) (s : string) : bool :=
  existsb (Ascii.eqb c) (chars s).

(** [s.replaceAll(p, r)] for a non-empty pattern [p], scanning left to right
    and skipping over each match; [skip] counts the characters of the current
    match still to be dropped.  An empty pattern leaves [s] as it is. *)
Fixpoint replaceFrom (p r : string) (skip : nat) (s : string) : string :=
  match s with
  | EmptyString => EmptyString
  | String c s' =>
      match skip with
      | S k => replaceFrom p r k s'
      | O =>
          if String.prefix p s
          then r ++ replaceFrom p r (String.length p - 1) s'
          else String c (replaceFrom p r 0 s')
      end
  end.

Definition replaceAll (s p r : string) : string :=
  match p with
  | EmptyString => s
  | _ => replaceFrom p r 0 s
  end.

(** [s.split(sep)] for a one-character separator. *)
Fixpoint split (sep : ascii) (s : string) : list string :=
  match s with
  | EmptyString => [EmptyString]
  | String c s' =>
      if Ascii.eqb c sep then EmptyString :: split sep s'
      else match split sep s' with
           | [] => [String c EmptyString]
           | w :: ws => String c w :: ws
           end
  end.

(** [String(n)] for an integer [n]. *)
Definition numberToString (n : Z) : string :=
  NilEmpty.string_of_int (Z.to_int n).

(** *** Dates (ECMA-262, 21.4.1)

    A time value is a number of milliseconds since 1970-01-01T00:00:00Z. *)
Definition msPerDay : Z := 86400000.

Definition Day (t : Z) : Z := (t / msPerDay)%Z.

(** Number of the first day of year [y], counted from the epoch. *)
Definition DayFromYear (y : Z) : Z :=
  (365 * (y - 1970) + (y - 1969) / 4 - (y - 1901) / 100 + (y - 1601) / 400)%Z.

(** The year, counted within a 400-year era that starts on 1 March, of the
    day [doe] of that era ([0 <= doe < 146097]); a day in January or February
    belongs to the next calendar year. *)
Definition yearOfEra (doe : Z) : Z :=
  let yoe := ((doe - doe / 1460 + doe / 36524 - doe / 146096) / 365)%Z in
  let doy := (doe - (365 * yoe + yoe / 4 - yoe / 100))%Z in
  let mp := ((5 * doy + 2) / 153)%Z in
  (yoe + (if (mp <? 10)%Z then 0 else 1))%Z.

(** The proleptic Gregorian year of day number [d]: the year [y] with
    [DayFromYear y <= d < DayFromYear (y + 1)], computed in closed form. *)
Definition YearFromDay (d : Z) : Z :=
  let z := (d + 719468)%Z in
  let era := (z / 146097)%Z in
  (yearOfEra (z - era * 146097) + era * 400)%Z.

Definition YearFromTime (t : Z) : Z := YearFromDay (Day t).

(** What a build reads from its host: the clock ([Date.now()]) and the local
    time zone adjustment, both in milliseconds. *)
Record Host : Type := {
  now : Z;
  localTZA : Z
}.

(** A host on UTC whose clock reads [t]. *)
Definition hostAt (t : Z) : Host := {| now := t; localTZA := 0 |}.

(** [new Date().getFullYear()]: the year of the current time in local time. *)
Definition getFullYear (h : Host) : Z :=
  YearFromTime (now h + localTZA h)%Z.

(** The local time of a host, and [TimeFromYear(y)], the time value at which
    year [y] starts. *)
Definition localTime (h : Host) : Z := (now h + localTZA h)%Z.

Definition TimeFromYear (y : Z) : Z := (msPerDay * DayFromYear y)%Z.

(** *** Object literals

    An object literal keeps its keys in source order; a later duplicate key
    wins a lookup, as in JavaScript. *)
#[warnings="-register-all"]
Inductive value : Type :=
| VStr (s : string)
| VBool (b : bool)
| VObj (fields : list (string * value)).

Definition object : Type := list (string * value).

Fixpoint get (k : string) (o : object) : option value :=
  match o with
  | [] => None
  | (k', v) :: o' =>
      match get k o' with
      | Some v' => Some v'
      | None => if String.eqb k k' then Some v else None
      end
  end.

End Js.

(** ** JSX element trees *)
Module Jsx.

(** The value of a JSX attribute: a string literal, a style object
    ([style={{ height: '2.5rem' }}]) or a bare attribute ([<style jsx>]). *)
Inductive attrValue : Type :=
| AStr (s : string)
| AStyle (decls : list (string * string))
| AFlag.

Definition attrs : Type := list (string * attrValue).

(** A React node: an element, literal text, a number produced by an embedded
    expression, or a fragment ([<>...</>]). *)
#[warnings="-register-all"]
Inductive node : Type :=
| Elem (tag : string) (a : attrs) (children : list node)
| Text (s : string)
| Num (n : Z)
| Frag (children : list node).

(** The value of attribute [k]; when an element repeats an attribute, the
    last one counts. *)
Fixpoint attr (k : string) (a : attrs) : option attrValue :=
  match a with
  | [] => None
  | (k', v) :: a' =>
      match attr k a' with
      | Some v' => Some v'
      | None => if String.eqb k k' then Some v else None
      end
  end.

Definition attrStr (k : string) (a : attrs) : option string :=
  match attr k a with
  | Some (AStr s) => Some s
  | _ => None
  end.

(** The children of a fragment; any other node stands for itself. *)
Definition items (n : node) : list node :=
  match n with
  | Frag ch => ch
  | _ => [n]
  end.

(** All elements of a tree, in document order. *)
Fixpoint elements (n : node) : list node :=
  match n with
  | Elem _ _ ch => n :: flat_map elements ch
  | Frag ch => flat_map elements ch
  | Text _ | Num _ => []
  end.

Definition tagOf (n : node) : string :=
  match n with
  | Elem t _ _ => t
  | _ => EmptyString
  end.

Definition attrsOf (n : node) : attrs :=
  match n with
  | Elem _ a _ => a
  | _ => []
  end.

(** The text a tree shows: its text and number leaves, concatenated. *)
Fixpoint textContent (n : node) : string :=
  match n with
  | Text s => s
  | Num z => Js.numberToString z
  | Elem _ _ ch | Frag ch => String.concat EmptyString (map textContent ch)
  end.

(** The targets a tree refers to: every [src] and [href], in document order. *)
Definition refsOf (n : node) : list string :=
  flat_map
    (fun e =>
       match attrStr "src" (attrsOf e), attrStr "href" (attrsOf e) with
       | Some s, Some h => [s; h]
       | Some s, None => [s]
       | None, Some h => [h]
       | None, None => []
       end)
    (elements n).

(** A reference into the site itself is an absolute path: it starts with one
    slash.  [https://...] and protocol-relative [//host/...] leave the site. *)
Definition isInternal (r : string) : bool :=
  Js.startsWith r "/" && negb (Js.startsWith r "//").

End Jsx.

(** ** Style sheets: the subset of CSS the theme's scoped style block uses *)
Module Css.
Import Jsx.

Record Rule : Type := {
  selector : string;
  declarations : list (string * string)
}.

(** A top-level statement: a style rule, or a media block guarding rules by
    one media feature, [@media (feature: value) { ... }]. *)
Inductive Statement : Type :=
| Style (r : Rule)
| Media (feature value : string) (rules : list Rule).

Definition Stylesheet : Type := list Statement.

(** *** Reading a style sheet from its text *)

Definition isSpace (c : ascii) : bool :=
  Ascii.eqb c " " || Ascii.eqb c (ascii_of_nat 10)
  || Ascii.eqb c (ascii_of_nat 9) || Ascii.eqb c (ascii_of_nat 13).

(** The maximal runs of non-blank characters. *)
Fixpoint words (s : string) : list string :=
  match s with
  | EmptyString => []
  | String c s' =>
      if isSpace c then words s'
      else match s' with
           | EmptyString => [String c EmptyString]
           | String c' _ =>
               if isSpace c' then String c EmptyString :: words s'
               else match words s' with
                    | w :: ws => String c w :: ws
                    | [] => [String c EmptyString]
                    end
           end
  end.

(** [s] without its last character, when that character is [c]. *)
Fixpoint stripLast (c : ascii) (s : string) : option string :=
  match s with
  | EmptyString => None
  | String x EmptyString => if Ascii.eqb x c then Some EmptyString else None
  | String x s' => option_map (String x) (stripLast c s')
  end.

Definition stripFirst (c : ascii) (s : string) : option string :=
  match s with
  | String x s' => if Ascii.eqb x c then Some s' else None
  | EmptyString => None
  end.

(** [prop: value;] pairs up to the closing brace. *)
Fixpoint readDeclarations (ts : list string)
  : option (list (string * string) * list string) :=
  match ts with
  | "}" :: rest => Some ([], rest)
  | p :: v :: rest =>
      match stripLast ":" p, stripLast ";" v, readDeclarations rest with
      | Some p', Some v', Some (ds, rest') => Some ((p', v') :: ds, rest')
      | _, _, _ => None
      end
  | _ => None
  end.

Definition readRule (ts : list string) : option (Rule * list string) :=
  match ts with
  | sel :: "{" :: rest =>
      match readDeclarations rest with
      | Some (ds, rest') =>
          Some ({| selector := sel; declarations := ds |}, rest')
      | None => None
      end
  | _ => None
  end.

(** The rules of a media block, up to its closing brace. *)
Fixpoint readRules (fuel : nat) (ts : list string)
  : option (list Rule * list string) :=
  match fuel with
  | O => None
  | S fuel' =>
      match ts with
      | "}" :: rest => Some ([], rest)
      | _ =>
          match readRule ts with
          | Some (r, rest) =>
              match readRules fuel' rest with
              | Some (rs, rest') => Some (r :: rs, rest')
              | None => None
              end
          | None => None
          end
      end
  end.

Fixpoint readStatements (fuel : nat) (ts : list string) : option Stylesheet :=
  match fuel with
  | O => None
  | S fuel' =>
      match ts with
      | [] => Some []
      | "@media" :: f :: v :: "{" :: rest =>
          match stripFirst "(" f with
          | Some f' =>
              match stripLast ":" f', stripLast ")" v, readRules fuel' rest with
              | Some f'', Some v', Some (rs, rest') =>
                  option_map (cons (Media f'' v' rs)) (readStatements fuel' rest')
              | _, _, _ => None
              end
          | None => None
          end
      | _ =>
          match readRule ts with
          | Some (r, rest) =>
              option_map (cons (Style r)) (readStatements fuel' rest)
          | None => None
          end
      end
  end.

(** Every statement consumes at least one word, so one unit of fuel per word
    (and one for the end) is enough. *)
Definition readStylesheet (css : string) : option Stylesheet :=
  let ts := words css in
  readStatements (S (List.length ts)) ts.

(** *** The cascade *)

(** What the client reports for [prefers-color-scheme]. *)
Inductive ColorScheme : Type := Dark | Light | NoPreference.

Definition colorSchemeName (p : ColorScheme) : string :=
  match p with
  | Dark => "dark"
  | Light => "light"
  | NoPreference => "no-preference"
  end.

(** A media feature this model does not know matches no client. *)
Definition mediaHolds (p : ColorScheme) (feature value : string) : bool :=
  String.eqb feature "prefers-color-scheme"
  && String.eqb value (colorSchemeName p).

(** The rules in force for a client, in source order. *)
Definition applicable (p : ColorScheme) (sheet : Stylesheet) : list Rule :=
  flat_map
    (fun st =>
       match st with
       | Style r => [r]
       | Media f v rs => if mediaHolds p f v then rs else []
       end)
    sheet.

(** The rules outside every media block: what holds by default. *)
Definition unconditional (sheet : Stylesheet) : list Rule :=
  flat_map
    (fun st =>
       match st with
       | Style r => [r]
       | Media _ _ _ => []
       end)
    sheet.

Definition classes (e : node) : list string :=
  match attrStr "className" (attrsOf e) with
  | Some s => words s
  | None => []
  end.

(** A selector is a class selector [.name] or a type selector [tag]. *)
Definition selects (sel : string) (e : node) : bool :=
  match stripFirst "." sel with
  | Some cls => existsb (String.eqb cls) (classes e)
  | None => String.eqb sel (tagOf e)
  end.

Definition specificity (sel : string) : nat :=
  match stripFirst "." sel with
  | Some _ => 10
  | None => 1
  end.

(** The last value a declaration list gives a property. *)
Fixpoint lastValue (prop : string) (ds : list (string * string)) : option string :=
  match ds with
  | [] => None
  | (k, v) :: ds' =>
      match lastValue prop ds' with
      | Some v' => Some v'
      | None => if String.eqb prop k then Some v else None
      end
  end.

(** The winning declaration of [prop] for [e]: among the rules that select
    [e], the most specific one; among equally specific ones, the last. *)
Definition cascaded (prop : string) (e : node) (rules : list Rule) : option string :=
  option_map snd
    (fold_left
       (fun best r =>
          if selects (selector r) e then
            match lastValue prop (declarations r), best with
            | Some v, Some (n, _) =>
                if Nat.leb n (specificity (selector r))
                then Some (specificity (selector r), v) else best
            | Some v, None => Some (specificity (selector r), v)
            | None, _ => best
            end
          else best)
       rules None).

Definition inlineStyle (prop : string) (e : node) : option string :=
  match attr "style" (attrsOf e) with
  | Some (AStyle ds) => lastValue prop ds
  | _ => None
  end.

(** The computed [display] of an element: its inline style, else the cascaded
    value, else the initial value. *)
Definition display (p : ColorScheme) (sheet : Stylesheet) (e : node) : string :=
  match inlineStyle "display" e with
  | Some v => v
  | None =>
      match cascaded "display" e (applicable p sheet) with
      | Some v => v
      | None => "inline"
      end
  end.

Definition isDisplayed (p : ColorScheme) (sheet : Stylesheet) (e : node) : bool :=
  negb (String.eqb (display p sheet e) "none").

(** The style sheet a tree carries in its [<style>] elements; a block that
    cannot be read contributes no rule. *)
Definition sheetOf (n : node) : Stylesheet :=
  flat_map
    (fun e =>
       if String.eqb (tagOf e) "style"
       then match readStylesheet (textContent e) with
            | Some sh => sh
            | None => []
            end
       else [])
    (elements n).

End Css.

(** ** The theme configuration ([theme.config.tsx]) *)
Module Theme.
Import Jsx.

(** The fields of [DocsThemeConfig] the file sets.  Nested objects are
    flattened: [project.link] is [project_link], and so on. *)
Record DocsThemeConfig : Type := {
  head : node;
  logo : node;
  project_link : string;
  chat_link : string;
  editLink_content : string;
  feedback_content : string;
  feedback_labels : string;
  docsRepositoryBase : string;
  footer_content : node
}.

Definition meta (name content : string) : node :=
  Elem "meta" [("name", AStr name); ("content", AStr content)] [].

(** The text of the [<style jsx>] block of the logo (lines 20-37). *)
Definition logoCss : string := "
        .dark-mode-logo {
          display: none;
        }
        .light-mode-logo {
          display: none;
        }
        @media (prefers-color-scheme: dark) {
          .dark-mode-logo {
            display: block;
          }
        }
        @media (prefers-color-scheme: light) {
          .light-mode-logo {
            display: block;
          }
        }
      ".

(** The default export of [theme.config.tsx].  The module builds the object
    when it is loaded; the only thing it reads from the host is the clock, in
    the footer's copyright line. *)
Definition config (h : Js.Host) : DocsThemeConfig := {|
  head :=
    Frag [
      meta "viewport" "width=device-width, initial-scale=1.0";
      meta "description" "Rig Crate Documentation";
      meta "author" "0xPlaygrounds";
      meta "keywords" "Rig, Docs, 0xPlaygrounds";
      meta "robots" "index, follow";
      Elem "link" [("rel", AStr "icon"); ("href", AStr "/favicon.ico")] []
    ];
  logo :=
    Frag [
      Elem "img" [("src", AStr "/rig-dark.svg");
                  ("style", AStyle [("height", "2.5rem")]);
                  ("alt", AStr "Rig Logo");
                  ("className", AStr "dark-mode-logo")] [];
      Elem "img" [("src", AStr "/rig-light.svg");
                  ("style", AStyle [("height", "2.5rem")]);
                  ("alt", AStr "Rig Logo");
                  ("className", AStr "light-mode-logo")] [];
      Elem "style" [("jsx", AFlag)] [Text logoCss]
    ];
  project_link := "https://github.com/0xPlaygrounds/rig";
  chat_link := "https://discord.gg/playgrounds";
  editLink_content := "Edit this page on GitHub →";
  feedback_content := "Question? Give us feedback →";
  feedback_labels := "feedback";
  docsRepositoryBase := "https://github.com/0xPlaygrounds/rig-docs";
  footer_content :=
    Elem "div" [("className", AStr "flex w-full flex-col items-center sm:items-start")] [
      Elem "div" [] [
        Elem "a" [("className", AStr "nextra-focus flex items-center gap-1 text-current");
                  ("target", AStr "_blank");
                  ("rel", AStr "noreferrer");
                  ("title", AStr "Playgrounds homepage");
                  ("href", AStr "https://playgrounds.network")] [
          Elem "span" [] [Text "Powered by  "];
          Elem "img" [("src", AStr "https://playgrounds.network/assets/PG-Logo.png");
                      ("style", AStyle [("height", "2rem"); ("display", "inline")]);
                      ("alt", AStr "Playgrounds Logo")] []
        ]
      ];
      Elem "p" [("className", AStr "mt-6 text-xs")] [
        Text "© "; Num (Js.getFullYear h); Text " Rig Docs."
      ]
    ]
|}.

(** The descriptor of a head entry: its tag with its [name] (a [meta]) or its
    [rel] (a [link]). *)
Definition descriptor (e : node) : string * option string :=
  (tagOf e,
   match attrStr "name" (attrsOf e) with
   | Some n => Some n
   | None => attrStr "rel" (attrsOf e)
   end).

(** The content of the [meta] entries called [name], in order. *)
Definition metaContent (name : string) (entries : list node) : list string :=
  flat_map
    (fun e =>
       match attrStr "name" (attrsOf e), attrStr "content" (attrsOf e) with
       | Some n, Some c =>
           if String.eqb (tagOf e) "meta" && String.eqb n name then [c] else []
       | _, _ => []
       end)
    entries.

(** The image references of a tree: the [src] of each [img], in order. *)
Definition images (n : node) : list string :=
  flat_map
    (fun e =>
       if String.eqb (tagOf e) "img"
       then match attrStr "src" (attrsOf e) with Some s => [s] | None => [] end
       else [])
    (elements n).

Definition isImage (e : node) : bool := String.eqb (tagOf e) "img".

(** The [img] elements of a tree, in order. *)
Definition imageElements (n : node) : list node :=
  filter isImage (elements n).

(** The colour scheme a logo variant is meant for, read off its class. *)
Definition variantOf (e : node) : option Css.ColorScheme :=
  match Css.classes e with
  | ["dark-mode-logo"] => Some Css.Dark
  | ["light-mode-logo"] => Some Css.Light
  | _ => None
  end.

(** The images of a tree a client with preference [p] is shown, under the
    style sheet the tree itself carries. *)
Definition displayedImages (p : Css.ColorScheme) (n : node) : list string :=
  flat_map
    (fun e =>
       if String.eqb (tagOf e) "img" && Css.isDisplayed p (Css.sheetOf n) e
       then match attrStr "src" (attrsOf e) with Some s => [s] | None => [] end
       else [])
    (elements n).

End Theme.

(** ** The site configuration (the Next configuration file) *)
Module Site.
Import Js.

(** What the file exports: the Next configuration object, wrapped by the
    plugin that was built from the plugin options. *)
Record SiteConfig : Type := {
  plugin : object;
  next : object
}.

(** [nextra(options)] returns the function that wraps a Next configuration. *)
Definition nextra (options : object) : object -> SiteConfig :=
  fun nextConfig => {| plugin := options; next := nextConfig |}.

(** [const withNextra = nextra({ ... })] (lines 4-9). *)
Definition withNextra : object -> SiteConfig :=
  nextra [
    ("theme", VStr "nextra-theme-docs");
    ("themeConfig", VStr "./theme.config.tsx");
    ("defaultShowCopyCode", VBool true);
    ("base_path", VStr "/rig-docs")
  ].

(** [export default withNextra({ ... })] (lines 11-16). *)
Definition siteConfig : SiteConfig :=
  withNextra [
    ("output", VStr "export");
    ("images", VObj [("unoptimized", VBool true)])
  ].

Inductive OutputMode : Type := StaticExport | ServerRendered.

(** [output: 'export'] selects the static export; anything else leaves the
    site server-rendered. *)
Definition outputMode (c : SiteConfig) : OutputMode :=
  match get "output" (next c) with
  | Some (VStr "export") => StaticExport
  | _ => ServerRendered
  end.

(** Images are optimized at build time unless [images.unoptimized] is true. *)
Definition imagesOptimized (c : SiteConfig) : bool :=
  match get "images" (next c) with
  | Some (VObj o) =>
      match get "unoptimized" o with
      | Some (VBool true) => false
      | _ => true
      end
  | _ => true
  end.

Definition str (v : option value) : option string :=
  match v with
  | Some (VStr s) => Some s
  | _ => None
  end.

(** The base path the file writes down: the [base_path] entry of the plugin
    options. *)
Definition base_path (c : SiteConfig) : option string :=
  str (get "base_path" (plugin c)).

(** The [basePath] entry of the Next configuration object. *)
Definition basePath (c : SiteConfig) : option string :=
  str (get "basePath" (next c)).

(** The [defaultShowCopyCode] entry of the plugin options. *)
Definition defaultShowCopyCode (c : SiteConfig) : bool :=
  match get "defaultShowCopyCode" (plugin c) with
  | Some (VBool b) => b
  | _ => false
  end.

End Site.

(** ** Content documents (the [.mdx] files under [pages/]) *)
Module Content.

(** A block of a page body.  Prose (paragraphs, lists, quotes) and the text
    of code blocks are carried by their line range in the source file; a code
    block keeps the info string of its opening fence. *)
Inductive Block : Type :=
| Heading (level : nat) (text : string)
| Prose (first last : nat)
| Code (info : string) (first last : nat).

Record ContentDocument : Type := {
  path : string;
  title : string;
  description : string;
  body : list Block
}.

Definition newline : ascii := ascii_of_nat 10.

(** The string after the first occurrence of [c], and the one before it. *)
Fixpoint cut (c : ascii) (s : string) : option (string * string) :=
  match s with
  | EmptyString => None
  | String x s' =>
      if Ascii.eqb x c then Some (EmptyString, s')
      else match cut c s' with
           | Some (k, v) => Some (String x k, v)
           | None => None
           end
  end.

Fixpoint trimStart (s : string) : string :=
  match s with
  | String " " s' => trimStart s'
  | _ => s
  end.

(** The [key: value] lines of a front matter block. *)
Definition readFrontMatter (text : string) : list (string * string) :=
  flat_map
    (fun line =>
       match cut ":" line with
       | Some (k, v) => [(k, trimStart v)]
       | None => []
       end)
    (Js.split newline text).

Fixpoint field (k : string) (fm : list (string * string)) : string :=
  match fm with
  | [] => EmptyString
  | (k', v) :: fm' => if String.eqb k k' then v else field k fm'
  end.

(** [s] without the prefix [p] (unchanged when [p] is no prefix of [s]). *)
Definition dropPrefix (p s : string) : string :=
  if String.prefix p s
  then String.substring (String.length p) (String.length s - String.length p) s
  else s.

(** [s] without the suffix [x] (unchanged when [x] is no suffix of [s]). *)
Definition dropSuffix (x s : string) : string :=
  let n := String.length s - String.length x in
  if String.eqb (String.substring n (String.length x) s) x
  then String.substring 0 n s
  else s.

(** The identity of a page: its file name relative to the content root,
    without the extension. *)
Definition pathOf (file : string) : string :=
  dropSuffix ".mdx" (dropPrefix "pages/" file).

Definition document (file frontMatter : string) (blocks : list Block)
  : ContentDocument :=
  let fm := readFrontMatter frontMatter in
  {| path := pathOf file;
     title := field "title" fm;
     description := field "description" fm;
     body := blocks |}.

(** [pages/docs/0_quickstart.mdx]: front matter (lines 2-3) and body. *)
Definition quickstartFrontMatter : string :=
"title: Quickstart
description: This section contains the quickstart guide for Rig.".

Definition quickstart : ContentDocument :=
  document "pages/docs/0_quickstart.mdx" quickstartFrontMatter [
    Prose 6 6;
    Heading 2 "The Challenge of Building LLM Applications";
    Prose 10 15;
    Heading 2 "Enter Rig: A Game-Changer for LLM Application Development";
    Prose 19 21;
    Heading 2 "Getting Started with Rig";
    Prose 25 25;
    Code "rust" 27 46;
    Prose 48 50;
    Code "toml" 52 56;
    Prose 58 58;
    Heading 2 "Key Features and Developer Experience";
    Prose 62 62;
    Heading 3 "1. Unified and Intuitive API";
    Prose 66 66;
    Code "rust" 68 76;
    Prose 78 78;
    Heading 3 "2. Advanced Abstractions for Complex Workflows";
    Prose 82 89;
    Code "rust" 91 98;
    Prose 100 100;
    Heading 3 "3. Type-Safe Development";
    Prose 104 104;
    Code "rust" 106 115;
    Prose 117 117;
    Heading 3 "4. Extensibility and Integration";
    Prose 121 121;
    Code "rust" 123 132;
    Prose 134 134;
    Heading 2 "Advanced Features: RAG Systems and Beyond";
    Prose 138 138;
    Code "rust" 140 174;
    Prose 176 183
  ].

(** The content store of the repository. *)
Definition contentStore : list ContentDocument := [quickstart].

(** The info strings of the code blocks of a page. *)
Definition codeBlocks (d : ContentDocument) : list string :=
  flat_map
    (fun b => match b with Code info _ _ => [info] | _ => [] end)
    (body d).

End Content.

(** ** The page renderer *)
Module Renderer.
Import Jsx Theme Content.

(** Modelled from the spec: template interpolation (sections 4.2 and 4.3).
    The generator that interpolates the edit and feedback templates is not
    among the sources, and the spec names no placeholder syntax: the token
    that stands for the current page path is a parameter. *)
Definition interpolate (placeholder pagePath template : string) : string :=
  Js.replaceAll template placeholder pagePath.

(** The characters that delimit a placeholder in the usual template
    syntaxes: [{path}], [{{path}}], [${path}], [$path], [%s], [[path]],
    [<path>]. *)
Definition sigils : list ascii := ["{"; "}"; "$"; "%"; "["; "]"; "<"; ">"]%char.

(** A token that can stand for the page path inside a template holds at least
    one delimiter, which sets it apart from the literal text around it. *)
Definition isPlaceholder (token : string) : bool :=
  existsb (fun c => Js.hasChar c token) sigils.

(** Literal text: a string that holds none of the delimiters. *)
Definition isLiteral (s : string) : bool :=
  forallb (fun c => negb (Js.hasChar c s)) sigils.

(** Modelled from the spec: the NavigationTree of section 3, a pure function
    of the documents' paths.  The generator that derives it is not among the
    sources.  Entries are kept in store order; the nesting is the directory
    prefix each path carries. *)
Definition NavigationTree : Type := list (string * string).

Definition navigationTree (docs : list ContentDocument) : NavigationTree :=
  map (fun d => (path d, title d)) docs.

Definition lineRange (a z : nat) : string :=
  Js.numberToString (Z.of_nat a) ++ "-" ++ Js.numberToString (Z.of_nat z).

Definition renderBlock (b : Block) : node :=
  match b with
  | Heading n t => Elem ("h" ++ Js.numberToString (Z.of_nat n)) [] [Text t]
  | Prose a z => Elem "div" [("data-lines", AStr (lineRange a z))] []
  | Code info a z =>
      Elem "pre" [("data-language", AStr info);
                  ("data-lines", AStr (lineRange a z))] []
  end.

(** The prefix of the links the renderer generates: the base path the site
    configuration file writes down, or none. *)
Definition basePrefix (site : Site.SiteConfig) : string :=
  match Site.base_path site with
  | Some p => p
  | None => EmptyString
  end.

Definition sidebarEntry (base current : string) (e : string * string) : node :=
  Elem "a"
    (("href", AStr (base ++ "/" ++ fst e))
     :: (if String.eqb (fst e) current then [("aria-current", AStr "page")] else []))
    [Text (snd e)].

(** Modelled from the spec: the Page Renderer of section 4.3, a pure
    transform of one document, the theme configuration and the navigation
    tree into a page.  The generator that renders pages is not among the
    sources.  The head holds the theme's head entries followed by the page's
    title and description; the body holds the logo and the external links,
    the sidebar with the current page marked, the document body, the edit and
    feedback links interpolated with the page path, and the footer.  Internal
    links the renderer generates itself are prefixed with the base path. *)
Definition renderPage (placeholder : string) (site : Site.SiteConfig)
    (theme : DocsThemeConfig) (nav : NavigationTree) (doc : ContentDocument)
  : node :=
  Elem "html" [] [
    Elem "head" []
      (List.app (items (head theme))
         [Elem "title" [] [Text (title doc)];
          meta "description" (description doc)]);
    Elem "body" [] [
      Elem "header" [] [
        logo theme;
        Elem "a" [("href", AStr (project_link theme))] [];
        Elem "a" [("href", AStr (chat_link theme))] []
      ];
      Elem "nav" [] (map (sidebarEntry (basePrefix site) (path doc)) nav);
      Elem "main" [] (map renderBlock (body doc));
      Elem "a" [("href",
                 AStr (interpolate placeholder (path doc) (docsRepositoryBase theme)))]
        [Text (interpolate placeholder (path doc) (editLink_content theme))];
      Elem "a" [("href",
                 AStr (interpolate placeholder (path doc) (docsRepositoryBase theme)));
                ("data-labels", AStr (feedback_labels theme))]
        [Text (interpolate placeholder (path doc) (feedback_content theme))];
      Elem "footer" [] [footer_content theme]
    ]
  ].

(** The entries of a page's head. *)
Definition pageHead (page : node) : list node :=
  match page with
  | Elem "html" _ (Elem "head" _ entries :: _) => entries
  | _ => []
  end.

(** The head metadata title: the text of the first [title] entry. *)
Definition headTitle (page : node) : option string :=
  option_map textContent
    (find (fun e => String.eqb (tagOf e) "title") (pageHead page)).

(** The head descriptions: the content of every [description] entry. *)
Definition headDescriptions (page : node) : list string :=
  metaContent "description" (pageHead page).

(** The parts of a page's body, and the links among them: the edit link and
    the feedback link. *)
Definition bodyItems (page : node) : list node :=
  match page with
  | Elem "html" _ [_; Elem "body" _ parts] => parts
  | _ => []
  end.

Definition pageLinks (page : node) : list node :=
  filter (fun e => String.eqb (tagOf e) "a") (bodyItems page).

(** The internal references of a page. *)
Definition internalRefs (page : node) : list string :=
  filter isInternal (refsOf page).

End Renderer.

(** ** The static exporter *)
Module Exporter.
Import Jsx Theme Content Renderer.

(** *** Serialization of a page *)

Definition quote : string := String (ascii_of_nat 34) EmptyString.

Fixpoint escape (s : string) : string :=
  match s with
  | EmptyString => EmptyString
  | String c s' =>
      (if Ascii.eqb c "&" then "&amp;"
       else if Ascii.eqb c "<" then "&lt;"
       else if Ascii.eqb c ">" then "&gt;"
       else if Ascii.eqb c (ascii_of_nat 34) then "&quot;"
       else String c EmptyString) ++ escape s'
  end.

Definition attrName (k : string) : string :=
  if String.eqb k "className" then "class" else k.

Definition styleText (ds : list (string * string)) : string :=
  String.concat ";" (map (fun d => fst d ++ ":" ++ snd d) ds).

Definition attrToHtml (a : string * attrValue) : string :=
  match snd a with
  | AStr v => " " ++ attrName (fst a) ++ "=" ++ quote ++ escape v ++ quote
  | AStyle ds => " style=" ++ quote ++ escape (styleText ds) ++ quote
  | AFlag => " " ++ attrName (fst a)
  end.

Definition isVoid (tag : string) : bool :=
  String.eqb tag "meta" || String.eqb tag "link" || String.eqb tag "img".

Fixpoint toHtml (n : node) : string :=
  match n with
  | Text s => escape s
  | Num z => Js.numberToString z
  | Frag ch => String.concat EmptyString (map toHtml ch)
  | Elem tag a ch =>
      if isVoid tag
      then "<" ++ tag ++ String.concat EmptyString (map attrToHtml a) ++ "/>"
      else "<" ++ tag ++ String.concat EmptyString (map attrToHtml a) ++ ">"
           ++ String.concat EmptyString (map toHtml ch)
           ++ "</" ++ tag ++ ">"
  end.

(** [f] wraps its argument between two fixed strings. *)
Definition Wraps (f : string -> string) : Prop :=
  exists a b, forall s, f s = a ++ s ++ b.

(** *** The output directory *)

(** A file of the output directory (or a static asset of the input): its
    path and its bytes. *)
Record File : Type := {
  file_path : string;
  file_bytes : string
}.

Section Build.

(** The token the templates use for the page path, and the build-time image
    optimizer: neither is fixed by the sources. *)
Variable placeholder : string.
Variable optimize : string -> string.

(** Modelled from the spec: the asset step of the Static Exporter of section
    4.4, which copies assets verbatim when image optimization is disabled.
    The generator that exports the site is not among the sources. *)
Definition emitAsset (site : Site.SiteConfig) (a : File) : File :=
  if Site.imagesOptimized site
  then {| file_path := file_path a; file_bytes := optimize (file_bytes a) |}
  else a.

Definition renderAll (site : Site.SiteConfig) (theme : DocsThemeConfig)
    (docs : list ContentDocument) : list (string * node) :=
  map
    (fun d =>
       (path d,
        renderPage placeholder site theme (navigationTree docs) d))
    docs.

Definition isReferenced (pages : list (string * node)) (a : File) : bool :=
  existsb
    (fun pg => existsb (String.eqb ("/" ++ file_path a)) (refsOf (snd pg)))
    pages.

Definition pageFile (pg : string * node) : File :=
  {| file_path := fst pg ++ ".html"; file_bytes := toHtml (snd pg) |}.

(** Modelled from the spec: the Static Exporter of section 4.4.  It renders
    every document, writes each page under a path mirroring the document's,
    and writes the static assets the pages refer to.  The generator that
    exports the site is not among the sources.  A server-rendered site writes
    no output directory. *)
Definition exportWith (site : Site.SiteConfig) (theme : DocsThemeConfig)
    (docs : list ContentDocument) (assets : list File) : list File :=
  match Site.outputMode site with
  | Site.ServerRendered => []
  | Site.StaticExport =>
      let pages := renderAll site theme docs in
      List.app
        (map pageFile pages)
        (map (emitAsset site) (filter (isReferenced pages) assets))
  end.

(** One run of the build on host [h]: the theme module is loaded, then the
    site is exported. *)
Definition exportSite (h : Js.Host) (docs : list ContentDocument)
    (assets : list File) : list File :=
  exportWith Site.siteConfig (Theme.config h) docs assets.

End Build.

End Exporter.

(** ** Readings of the theme's markup and of a page's outline *)
Module Markup.
Import Jsx Theme Content.

(** The copyright line of the footer: the text of its paragraph. *)
Definition copyrightLine (c : DocsThemeConfig) : option string :=
  option_map textContent
    (find (fun e => String.eqb (tagOf e) "p") (elements (footer_content c))).

(** Every target the theme configuration names: the references of its three
    fragments and its three link options. *)
Definition themeRefs (c : DocsThemeConfig) : list string :=
  (refsOf (head c) ++ refsOf (logo c)
   ++ [project_link c; chat_link c; docsRepositoryBase c]
   ++ refsOf (footer_content c))%list.

(** Every element of the three fragments of the theme configuration. *)
Definition themeElements (c : DocsThemeConfig) : list node :=
  (elements (head c) ++ elements (logo c) ++ elements (footer_content c))%list.

(** A target inside the site, or one reached over https. *)
Definition isSecure (r : string) : bool :=
  isInternal r || Js.startsWith r "https://".

Definition opensNewTab (e : node) : bool :=
  match attrStr "target" (attrsOf e) with
  | Some t => String.eqb t "_blank"
  | None => false
  end.

(** The [rel] attribute of [e] lists the word [w]. *)
Definition relHas (w : string) (e : node) : bool :=
  match attrStr "rel" (attrsOf e) with
  | Some r => existsb (String.eqb w) (Css.words r)
  | None => false
  end.

Definition hasAlt (e : node) : bool :=
  match attrStr "alt" (attrsOf e) with
  | Some (String _ _) => true
  | _ => false
  end.

(** The attributes of [e] other than those called [ks]. *)
Definition attrsWithout (ks : list string) (e : node) : attrs :=
  filter (fun kv => negb (existsb (String.eqb (fst kv)) ks)) (attrsOf e).

(** The heading levels of a page body, in order. *)
Definition headingLevels (d : ContentDocument) : list nat :=
  flat_map (fun b => match b with Heading n _ => [n] | _ => [] end) (body d).

(** An outline under a page title: every heading is of level 2 or deeper,
    and a heading goes at most one level deeper than the heading before it
    (the page title counting as level 1). *)
Fixpoint outlineFrom (prev : nat) (levels : list nat) : bool :=
  match levels with
  | [] => true
  | n :: rest => Nat.leb 2 n && Nat.leb n (S prev) && outlineFrom n rest
  end.

Definition outlineOk (d : ContentDocument) : bool :=
  outlineFrom 1 (headingLevels d).

(** The language a fence names: the first word of its info string. *)
Definition language (info : string) : option string :=
  match Css.words info with
  | w :: _ => Some w
  | [] => None
  end.

End Markup.

(** * Properties *)

(** ** Strings *)
Module JsFacts.
Import Js.

Lemma prefix_cons_inv (a b : ascii) (p s : string) :
  String.prefix (String a p) (String b s) = true -> a = b /\ String.prefix p s = true.
Proof.
  simpl. destruct (ascii_dec a b) as [->|]; [auto | discriminate].
Qed.

Lemma prefix_chars (p s : string) :
  String.prefix p s = true -> incl (chars p) (chars s).
Proof.
  revert s. induction p as [|a p IH]; intros s H.
  - intros c [].
  - destruct s as [|b s]; [discriminate|].
    apply prefix_cons_inv in H as [-> H].
    simpl. intros c [<-|Hc]; [now left | right; now apply (IH s)].
Qed.

Lemma includes_chars (s p : string) :
  includes s p = true -> incl (chars p) (chars s).
Proof.
  induction s as [|b s IH]; cbn [includes]; intros H.
  - rewrite orb_false_r in H. now apply prefix_chars in H.
  - apply orb_true_iff in H as [H|H].
    + now apply prefix_chars in H.
    + intros c Hc. right. now apply IH.
Qed.

Lemma hasChar_In (c : ascii) (s : string) :
  hasChar c s = true <-> In c (chars s).
Proof.
  unfold hasChar. rewrite existsb_exists. split.
  - intros (x & Hx & E). apply Ascii.eqb_eq in E. now subst.
  - intros H. exists c. split; [assumption | apply Ascii.eqb_refl].
Qed.

(** A pattern that holds a character the string lacks does not occur in it. *)
Lemma includes_absent_char (c : ascii) (s p : string) :
  hasChar c p = true -> hasChar c s = false -> includes s p = false.
Proof.
  intros Hp Hs. destruct (includes s p) eqn:E; [|reflexivity].
  apply includes_chars in E. apply hasChar_In in Hp. apply E in Hp.
  apply hasChar_In in Hp. congruence.
Qed.

Lemma replaceFrom_absent (p r s : string) :
  includes s p = false -> replaceFrom p r 0 s = s.
Proof.
  induction s as [|b s IH]; cbn [includes replaceFrom]; intros H; [reflexivity|].
  apply orb_false_iff in H as [H1 H2].
  rewrite H1. now rewrite IH.
Qed.

(** Replacing a pattern that does not occur changes nothing. *)
Lemma replaceAll_absent (s p r : string) :
  includes s p = false -> replaceAll s p r = s.
Proof.
  intros H. unfold replaceAll. destruct p; [reflexivity|].
  now apply replaceFrom_absent.
Qed.

Example replaceAll_fills_placeholder :
  replaceAll "edit/{path}.mdx#{path}" "{path}" "docs/intro"
  = "edit/docs/intro.mdx#docs/intro".
Proof. reflexivity. Qed.

Example replaceAll_skips_overlap : replaceAll "aaa" "aa" "b" = "ba".
Proof. reflexivity. Qed.

Example includes_middle : includes "Rig Docs" "g D" = true.
Proof. reflexivity. Qed.

End JsFacts.

(** ** The calendar *)
Module DateFacts.
Import Js.
Local Open Scope Z_scope.

(** Within an era, [yearOfEra] puts a day in the year whose span holds it. *)
Lemma yearOfEra_spec (doe : Z) :
  0 <= doe < 146097 ->
  DayFromYear (yearOfEra doe) <= doe - 719468 < DayFromYear (yearOfEra doe + 1).
Proof.
  intros H. unfold yearOfEra, DayFromYear. cbv zeta.
  match goal with
  | |- context [if (?a <? ?b) then _ else _] => destruct (Z.ltb_spec a b)
  end.
  all: Z.div_mod_to_equations; lia.
Qed.

Lemma DayFromYear_era (y k : Z) :
  DayFromYear (y + 400 * k) = DayFromYear y + 146097 * k.
Proof.
  unfold DayFromYear.
  replace (y + 400 * k - 1969) with ((y - 1969) + (100 * k) * 4) by lia.
  replace (y + 400 * k - 1901) with ((y - 1901) + (4 * k) * 100) by lia.
  replace (y + 400 * k - 1601) with ((y - 1601) + k * 400) by lia.
  rewrite !Z.div_add by lia. lia.
Qed.

Lemma DayFromYear_step (y : Z) :
  365 <= DayFromYear (y + 1) - DayFromYear y <= 366.
Proof.
  unfold DayFromYear. Z.div_mod_to_equations. lia.
Qed.

Lemma DayFromYear_mono (y y' : Z) : y <= y' -> DayFromYear y <= DayFromYear y'.
Proof.
  intros H. replace y' with (y + Z.of_nat (Z.to_nat (y' - y))) by lia.
  induction (Z.to_nat (y' - y)) as [|n IH]; [rewrite Z.add_0_r; lia|].
  rewrite Nat2Z.inj_succ.
  pose proof (DayFromYear_step (y + Z.of_nat n)).
  replace (y + Z.succ (Z.of_nat n)) with (y + Z.of_nat n + 1) by lia. lia.
Qed.

(** The closed form yields the year the day falls in. *)
Lemma YearFromDay_spec (d : Z) :
  DayFromYear (YearFromDay d) <= d < DayFromYear (YearFromDay d + 1).
Proof.
  unfold YearFromDay. cbv zeta.
  set (z := d + 719468). set (era := z / 146097).
  assert (Hdoe : 0 <= z - era * 146097 < 146097).
  { unfold era. pose proof (Z.mod_pos_bound z 146097 ltac:(lia)) as B.
    rewrite Z.mod_eq in B by lia. lia. }
  pose proof (yearOfEra_spec _ Hdoe) as [Hlo Hhi].
  replace (yearOfEra (z - era * 146097) + era * 400 + 1)
    with (yearOfEra (z - era * 146097) + 1 + 400 * era) by lia.
  replace (yearOfEra (z - era * 146097) + era * 400)
    with (yearOfEra (z - era * 146097) + 400 * era) by lia.
  rewrite !DayFromYear_era. unfold z in *. lia.
Qed.

(** The year of a day is the only one whose span holds it. *)
Lemma YearFromDay_unique (d y : Z) :
  DayFromYear y <= d < DayFromYear (y + 1) -> YearFromDay d = y.
Proof.
  intros H. pose proof (YearFromDay_spec d) as S.
  destruct (Z.lt_trichotomy (YearFromDay d) y) as [L|[E|G]]; [|assumption|].
  - pose proof (DayFromYear_mono (YearFromDay d + 1) y ltac:(lia)). lia.
  - pose proof (DayFromYear_mono (y + 1) (YearFromDay d) ltac:(lia)). lia.
Qed.

Example getFullYear_epoch : getFullYear (hostAt 0) = 1970.
Proof. reflexivity. Qed.

Example getFullYear_before_epoch : getFullYear (hostAt (-1)) = 1969.
Proof. reflexivity. Qed.

Example getFullYear_leap_day : getFullYear (hostAt 1709164800000) = 2024.
Proof. reflexivity. Qed.

(** One second before the new year in UTC is already the new year one hour
    to the east. *)
Example getFullYear_local_time :
  getFullYear {| now := 1735689599000; localTZA := 0 |} = 2024
  /\ getFullYear {| now := 1735689599000; localTZA := 3600000 |} = 2025.
Proof. split; reflexivity. Qed.

End DateFacts.

(** ** Element trees *)
Module JsxFacts.
Import Jsx.

Lemma elements_items (n : node) : flat_map elements (items n) = elements n.
Proof. destruct n; simpl; try rewrite app_nil_r; reflexivity. Qed.

Lemma elements_child (t : string) (a : attrs) (ch : list node) (c : node) :
  In c ch -> incl (elements c) (elements (Elem t a ch)).
Proof.
  intros Hc e He. simpl. right. apply in_flat_map. now exists c.
Qed.

(** An element refers to whatever its children refer to. *)
Lemma refsOf_child (t : string) (a : attrs) (ch : list node) (c : node) :
  In c ch -> incl (refsOf c) (refsOf (Elem t a ch)).
Proof.
  intros Hc r Hr. unfold refsOf in *. apply in_flat_map in Hr as (e & He & Hr).
  apply in_flat_map. exists e. split; [|assumption].
  now apply (elements_child t a ch c).
Qed.

(** So does an element whose children start with the items of a fragment. *)
Lemma refsOf_items (t : string) (a : attrs) (n : node) (rest : list node) :
  incl (refsOf n) (refsOf (Elem t a (items n ++ rest))).
Proof.
  intros r Hr. unfold refsOf in *. apply in_flat_map in Hr as (e & He & Hr).
  apply in_flat_map. exists e. split; [|assumption].
  simpl. right. rewrite flat_map_app, elements_items.
  apply in_or_app. now left.
Qed.

End JsxFacts.

(** ** The cascade *)
Module CssFacts.
Import Jsx Css.

(** A client for which no media block of a sheet holds is under the rules
    that stand outside the media blocks, and no others. *)
Lemma applicable_unconditional (p : ColorScheme) (sheet : Stylesheet) :
  (forall f v rs, In (Media f v rs) sheet -> mediaHolds p f v = false) ->
  applicable p sheet = unconditional sheet.
Proof.
  induction sheet as [|st sheet IH]; intros H; [reflexivity|].
  unfold applicable, unconditional in *. cbn [flat_map].
  rewrite IH by (intros f v rs Hin; apply (H f v rs); now right).
  destruct st as [r|f v rs]; [reflexivity|].
  now rewrite (H f v rs) by now left.
Qed.

(** A media block on [prefers-color-scheme] holds for the one scheme it
    names. *)
Lemma mediaHolds_scheme (p q : ColorScheme) :
  mediaHolds p "prefers-color-scheme" (colorSchemeName q) = true <-> p = q.
Proof.
  destruct p, q; split; intros H; first [reflexivity | discriminate H].
Qed.

Example cascade_last_wins :
  display NoPreference
    [Style {| selector := ".a"; declarations := [("display", "none")] |};
     Style {| selector := ".a"; declarations := [("display", "block")] |}]
    (Elem "img" [("className", AStr "a b")] [])
  = "block".
Proof. reflexivity. Qed.

Example cascade_class_beats_type :
  display NoPreference
    [Style {| selector := ".a"; declarations := [("display", "none")] |};
     Style {| selector := "img"; declarations := [("display", "block")] |}]
    (Elem "img" [("className", AStr "a")] [])
  = "none".
Proof. reflexivity. Qed.

Example cascade_inline_wins :
  display NoPreference
    [Style {| selector := ".a"; declarations := [("display", "none")] |}]
    (Elem "img" [("className", AStr "a"); ("style", AStyle [("display", "inline")])] [])
  = "inline".
Proof. reflexivity. Qed.

Example readStylesheet_unclosed : readStylesheet ".a { display: none;" = None.
Proof. reflexivity. Qed.

End CssFacts.

(** ** The theme: head and logo *)
Module ThemeFacts.
Import Jsx Css Theme CssFacts.

Lemma head_host_independent (h h' : Js.Host) : head (config h) = head (config h').
Proof. reflexivity. Qed.

Lemma logo_host_independent (h h' : Js.Host) : logo (config h) = logo (config h').
Proof. reflexivity. Qed.

(** The scoped style block of the logo reads as two default rules followed by
    two media blocks. *)
Lemma logo_sheet (h : Js.Host) :
  sheetOf (logo (config h)) =
  [ Style {| selector := ".dark-mode-logo"; declarations := [("display", "none")] |};
    Style {| selector := ".light-mode-logo"; declarations := [("display", "none")] |};
    Media "prefers-color-scheme" "dark"
      [{| selector := ".dark-mode-logo"; declarations := [("display", "block")] |}];
    Media "prefers-color-scheme" "light"
      [{| selector := ".light-mode-logo"; declarations := [("display", "block")] |}] ].
Proof. vm_compute. reflexivity. Qed.

Lemma logo_image_elements (h : Js.Host) :
  map classes (imageElements (logo (config h)))
  = [["dark-mode-logo"]; ["light-mode-logo"]].
Proof. vm_compute. reflexivity. Qed.

(** A logo image is displayed exactly to the clients that prefer its scheme. *)
Lemma logo_image_displayed (h : Js.Host) (p : ColorScheme) :
  Forall
    (fun e => isDisplayed p (sheetOf (logo (config h))) e = true <-> variantOf e = Some p)
    (imageElements (logo (config h))).
Proof.
  rewrite logo_sheet, (logo_host_independent h (Js.hostAt 0)).
  apply Forall_forall. intros e He.
  vm_compute in He. destruct He as [<-|[<-|[]]];
    destruct p; split; intros H;
    first [reflexivity | vm_compute in H; discriminate H].
Qed.

(** C7.  The logo holds exactly two image references, the dark-mode variant
    and the light-mode variant, in every build: the file does not choose
    between them.  The choice is the client's: under
    [prefers-color-scheme: dark] only the dark variant is displayed, under
    [prefers-color-scheme: light] only the light one. *)
Theorem C7_logo_variants (h h' : Js.Host) :
  logo (config h') = logo (config h)
  /\ images (logo (config h)) = ["/rig-dark.svg"; "/rig-light.svg"]
  /\ map variantOf (imageElements (logo (config h))) = [Some Dark; Some Light]
  /\ displayedImages Dark (logo (config h)) = ["/rig-dark.svg"]
  /\ displayedImages Light (logo (config h)) = ["/rig-light.svg"].
Proof.
  split; [apply logo_host_independent|].
  repeat split.
Qed.

(** C9.  A client that reports neither a dark nor a light preference is
    shown no logo image: it is under the rules outside the media blocks only,
    which give both variants [display: none]; a variant is displayed only to
    a client whose preference is the variant's own scheme. *)
Theorem C9_no_preference_no_logo (h : Js.Host) :
  displayedImages NoPreference (logo (config h)) = []
  /\ applicable NoPreference (sheetOf (logo (config h)))
     = unconditional (sheetOf (logo (config h)))
  /\ Forall
       (fun e => cascaded "display" e (unconditional (sheetOf (logo (config h)))) = Some "none")
       (imageElements (logo (config h)))
  /\ (forall p : ColorScheme,
        Forall
          (fun e => isDisplayed p (sheetOf (logo (config h))) e = true <-> variantOf e = Some p)
          (imageElements (logo (config h)))).
Proof.
  split; [reflexivity|]. split; [|split].
  - apply applicable_unconditional. rewrite logo_sheet.
    intros f v rs [E|[E|[E|[E|[]]]]]; try discriminate E;
      injection E as <- <- _; reflexivity.
  - rewrite logo_sheet. repeat constructor.
  - intros p. apply logo_image_displayed.
Qed.
End ThemeFacts.

(** ** Rendered pages: the head *)
Module RendererFacts.
Import Jsx Theme Content Renderer Site.

Lemma find_app_none {A : Type} (f : A -> bool) (l l' : list A) :
  find f l = None -> find f (l ++ l') = find f l'.
Proof.
  induction l as [|x l IH]; simpl; [reflexivity|].
  destruct (f x); [discriminate | exact IH].
Qed.

Lemma pageHead_renderPage ph site theme nav doc :
  pageHead (renderPage ph site theme nav doc)
  = (items (head theme)
     ++ [Elem "title" [] [Text (title doc)]; meta "description" (description doc)])%list.
Proof. reflexivity. Qed.

(** A theme whose head has no title of its own leaves the page title to the
    document. *)
Lemma headTitle_renderPage ph site theme nav doc :
  find (fun e => String.eqb (tagOf e) "title") (items (head theme)) = None ->
  headTitle (renderPage ph site theme nav doc) = Some (title doc).
Proof.
  intros H. unfold headTitle. rewrite pageHead_renderPage, (find_app_none _ _ _ H).
  reflexivity.
Qed.

Lemma metaContent_app name l l' :
  metaContent name (l ++ l') = (metaContent name l ++ metaContent name l')%list.
Proof. apply flat_map_app. Qed.

Lemma headDescriptions_renderPage ph site theme nav doc :
  headDescriptions (renderPage ph site theme nav doc)
  = (metaContent "description" (items (head theme)) ++ [description doc])%list.
Proof.
  unfold headDescriptions. rewrite pageHead_renderPage, metaContent_app.
  reflexivity.
Qed.

(** C4.  For a document at path [docs/quickstart] whose front matter title
    is "Quickstart", the head metadata title of the rendered page is exactly
    "Quickstart". *)
Theorem C4_quickstart_title (h : Js.Host) (ph : string) (nav : NavigationTree)
    (doc : ContentDocument) :
  path doc = "docs/quickstart" ->
  title doc = "Quickstart" ->
  headTitle (renderPage ph siteConfig (config h) nav doc) = Some "Quickstart".
Proof.
  intros _ Ht. rewrite <- Ht. now apply headTitle_renderPage.
Qed.

(** The theme's head has one description of its own, the same on every
    host and page. *)
Lemma theme_head_description (h : Js.Host) :
  metaContent "description" (items (head (config h))) = ["Rig Crate Documentation"].
Proof. reflexivity. Qed.

(** C5.  For every document the renderer puts the document's own title and
    a description entry with the document's own description into the head of
    the rendered page, and the head descriptions of two pages agree exactly
    when the descriptions of their documents do: the description in the head
    varies with the document. *)
Theorem C5_head_title_and_description (h : Js.Host) (ph : string)
    (nav nav' : NavigationTree) (doc doc' : ContentDocument) :
  headTitle (renderPage ph siteConfig (config h) nav doc) = Some (title doc)
  /\ In (Elem "title" [] [Text (title doc)])
        (pageHead (renderPage ph siteConfig (config h) nav doc))
  /\ In (meta "description" (description doc))
        (pageHead (renderPage ph siteConfig (config h) nav doc))
  /\ In (description doc)
        (headDescriptions (renderPage ph siteConfig (config h) nav doc))
  /\ (headDescriptions (renderPage ph siteConfig (config h) nav doc)
      = headDescriptions (renderPage ph siteConfig (config h) nav' doc')
      <-> description doc = description doc').
Proof.
  split; [now apply headTitle_renderPage|].
  rewrite !headDescriptions_renderPage, !pageHead_renderPage.
  split; [apply in_or_app; right; now left|].
  split; [apply in_or_app; right; right; now left|].
  split; [apply in_or_app; right; now left|].
  split.
  - intros E. apply app_inv_head in E. now injection E.
  - now intros ->.
Qed.

(** C6.  The head of the theme configuration consists of exactly five
    [meta] entries (viewport, description, author, keywords, robots) and one
    favicon [link], and the head of every rendered page holds each of
    them. *)
Theorem C6_head_entries (h : Js.Host) (ph : string) (nav : NavigationTree)
    (doc : ContentDocument) :
  map descriptor (items (head (config h)))
  = [("meta", Some "viewport"); ("meta", Some "description");
     ("meta", Some "author"); ("meta", Some "keywords");
     ("meta", Some "robots"); ("link", Some "icon")]
  /\ incl (items (head (config h)))
          (pageHead (renderPage ph siteConfig (config h) nav doc)).
Proof.
  split; [reflexivity|].
  rewrite pageHead_renderPage. apply incl_appl, incl_refl.
Qed.

(** C4, at a document stored at [docs/quickstart]. *)
Lemma C4_quickstart_title_witness :
  headTitle
    (renderPage "{path}" siteConfig (config (Js.hostAt 0))
       [("docs/quickstart", "Quickstart")]
       {| path := "docs/quickstart"; title := "Quickstart";
          description := description quickstart; body := body quickstart |})
  = Some "Quickstart".
Proof.
  apply (C4_quickstart_title (Js.hostAt 0) "{path}"
           [("docs/quickstart", "Quickstart")]
           {| path := "docs/quickstart"; title := "Quickstart";
              description := description quickstart; body := body quickstart |});
    reflexivity.
Defined.

Example quickstart_front_matter :
  title quickstart = "Quickstart"
  /\ description quickstart = "This section contains the quickstart guide for Rig.".
Proof. split; reflexivity. Qed.

(** The quickstart page of the repository is stored as [0_quickstart]. *)
Lemma quickstart_path : path quickstart = "docs/0_quickstart".
Proof. reflexivity. Qed.

End RendererFacts.

(** ** The output directory *)
Module ExportFacts.
Import Jsx Theme Content Renderer Site Exporter.

Lemma config_year (h1 h2 : Js.Host) :
  Js.getFullYear h1 = Js.getFullYear h2 -> config h1 = config h2.
Proof. intros H. unfold config. now rewrite H. Qed.

(** The footer tells the year of the build apart. *)
Lemma config_footer_year (h1 h2 : Js.Host) :
  config h1 = config h2 -> Js.getFullYear h1 = Js.getFullYear h2.
Proof.
  intros H. apply (f_equal footer_content) in H. unfold config in H.
  cbn [footer_content] in H. congruence.
Qed.

(** *** Strings built around one hole *)
Lemma append_assoc (a b c : string) : (a ++ b) ++ c = a ++ (b ++ c).
Proof. induction a as [|x a IH]; simpl; [reflexivity | now rewrite IH]. Qed.

Lemma append_nil_r (a : string) : a ++ "" = a.
Proof. induction a as [|x a IH]; simpl; [reflexivity | now rewrite IH]. Qed.

Lemma append_length (a b : string) :
  String.length (a ++ b) = String.length a + String.length b.
Proof. induction a as [|x a IH]; simpl; [reflexivity | now rewrite IH]. Qed.

Lemma append_cancel_l (a s t : string) : a ++ s = a ++ t -> s = t.
Proof. induction a as [|x a IH]; simpl; intros H; [assumption | injection H; auto]. Qed.

Lemma append_cancel_r (b s t : string) : s ++ b = t ++ b -> s = t.
Proof.
  revert t. induction s as [|x s IH]; intros [|y t] H; simpl in H.
  - reflexivity.
  - apply (f_equal String.length) in H. simpl in H. rewrite append_length in H. lia.
  - apply (f_equal String.length) in H. simpl in H. rewrite append_length in H. lia.
  - injection H as -> H. f_equal. now apply IH.
Qed.

Lemma Wraps_id : Wraps (fun s => s).
Proof. exists "", "". intros s. simpl. now rewrite append_nil_r. Qed.

Lemma Wraps_prepend (p : string) (f : string -> string) :
  Wraps f -> Wraps (fun s => p ++ f s).
Proof.
  intros (a & b & H). exists (p ++ a), b. intros s.
  now rewrite H, append_assoc.
Qed.

Lemma Wraps_cons (c : ascii) (f : string -> string) :
  Wraps f -> Wraps (fun s => String c (f s)).
Proof. apply (Wraps_prepend (String c "")). Qed.

Lemma Wraps_append (q : string) (f : string -> string) :
  Wraps f -> Wraps (fun s => f s ++ q).
Proof.
  intros (a & b & H). exists a, (b ++ q). intros s.
  now rewrite H, !append_assoc.
Qed.

Lemma Wraps_inj (f : string -> string) (s t : string) :
  Wraps f -> f s = f t -> s = t.
Proof.
  intros (a & b & H) E. rewrite !H in E.
  apply append_cancel_l, append_cancel_r in E. exact E.
Qed.

Lemma numberToString_inj (m n : Z) :
  Js.numberToString m = Js.numberToString n -> m = n.
Proof.
  unfold Js.numberToString. intros H.
  apply (f_equal NilEmpty.int_of_string) in H. rewrite !NilEmpty.isi in H.
  injection H as H. now apply DecimalZ.to_int_inj.
Qed.

Ltac wraps :=
  lazymatch goal with
  | |- Wraps (fun s => s) => exact Wraps_id
  | |- Wraps (fun s => String ?c (@?g s)) => refine (Wraps_cons c g _); wraps
  | |- Wraps (fun s => @?l s ++ @?r s) =>
      lazymatch l with
      | (fun _ => ?p) => refine (Wraps_prepend p r _); wraps
      | _ =>
          lazymatch r with
          | (fun _ => ?q) => refine (Wraps_append q l _); wraps
          end
      end
  end.

(** Two builds that write the same bytes for a page ran in the same year. *)
Lemma page_bytes_year (ph : string) (nav : NavigationTree) (doc : ContentDocument)
    (h1 h2 : Js.Host) :
  toHtml (renderPage ph siteConfig (config h1) nav doc)
  = toHtml (renderPage ph siteConfig (config h2) nav doc) ->
  Js.getFullYear h1 = Js.getFullYear h2.
Proof.
  intros H. apply numberToString_inj.
  cbn [toHtml renderPage config footer_content head logo project_link chat_link
       editLink_content feedback_content feedback_labels docsRepositoryBase
       map String.concat isVoid String.eqb Ascii.eqb Bool.eqb orb] in H.
  match type of H with
  | ?L = _ =>
      match eval pattern (Js.numberToString (Js.getFullYear h1)) in L with
      | ?f _ =>
          change (f (Js.numberToString (Js.getFullYear h1))
                  = f (Js.numberToString (Js.getFullYear h2))) in H;
          apply (Wraps_inj f); [wraps | exact H]
      end
  end.
Qed.

Lemma exportSite_unfold ph optimize h docs assets :
  exportSite ph optimize h docs assets
  = (map pageFile (renderAll ph siteConfig (config h) docs)
     ++ filter (isReferenced (renderAll ph siteConfig (config h) docs)) assets)%list.
Proof.
  unfold exportSite, exportWith.
  change (outputMode siteConfig) with StaticExport. cbv iota zeta. f_equal.
  rewrite <- (map_id (filter _ assets)) at 2. apply map_ext. reflexivity.
Qed.

(** Builds of a non-empty site that write the same output ran in the same
    year. *)
Lemma exportSite_year ph optimize h1 h2 docs assets :
  docs <> [] ->
  exportSite ph optimize h1 docs assets = exportSite ph optimize h2 docs assets ->
  Js.getFullYear h1 = Js.getFullYear h2.
Proof.
  intros Hne H. destruct docs as [|d docs]; [congruence|].
  rewrite !exportSite_unfold in H.
  apply (f_equal (fun fs => match fs with f :: _ => file_bytes f | [] => "" end)) in H.
  cbn [renderAll map app pageFile file_bytes snd] in H.
  now apply page_bytes_year in H.
Qed.

(** C1, as amended.  Two runs of the static export of a non-empty set of
    documents, with the same documents, configuration files and assets, write
    byte-identical output directories exactly when the hosts report the same
    calendar year at both runs: the footer carries the year of the build. *)
Theorem C1_export_same_year (ph : string) (optimize : string -> string)
    (h1 h2 : Js.Host) (docs : list ContentDocument) (assets : list File) :
  docs <> [] ->
  (config h1 = config h2 <-> Js.getFullYear h1 = Js.getFullYear h2)
  /\ (exportSite ph optimize h1 docs assets = exportSite ph optimize h2 docs assets
      <-> Js.getFullYear h1 = Js.getFullYear h2).
Proof.
  intros Hne. split; split.
  - apply config_footer_year.
  - apply config_year.
  - now apply exportSite_year.
  - intros H. unfold exportSite. now rewrite (config_year h1 h2 H).
Qed.

(** C1, as amended, at two builds of the repository's content within 2024
    (1 January 00:00:00 and 31 December 23:59:59, UTC). *)
Lemma C1_export_same_year_witness :
  (config (Js.hostAt 1704067200000) = config (Js.hostAt 1735689599000)
   <-> Js.getFullYear (Js.hostAt 1704067200000) = Js.getFullYear (Js.hostAt 1735689599000))
  /\ (exportSite "{path}" (fun b => b) (Js.hostAt 1704067200000) contentStore []
      = exportSite "{path}" (fun b => b) (Js.hostAt 1735689599000) contentStore []
      <-> Js.getFullYear (Js.hostAt 1704067200000) = Js.getFullYear (Js.hostAt 1735689599000)).
Proof.
  apply (C1_export_same_year "{path}" (fun b => b) (Js.hostAt 1704067200000)
           (Js.hostAt 1735689599000) contentStore []).
  discriminate.
Defined.

(** C1, as stated, fails: two exports of the unchanged repository one second
    apart, at 2024-12-31T23:59:59Z and at 2025-01-01T00:00:00Z, differ; the
    footer reads 2024 in the first and 2025 in the second. *)
Lemma C1_export_differs_across_new_year :
  textContent (footer_content (config (Js.hostAt 1735689599000)))
  = "Powered by  © 2024 Rig Docs."
  /\ textContent (footer_content (config (Js.hostAt 1735689600000)))
     = "Powered by  © 2025 Rig Docs."
  /\ exportSite "{path}" (fun b => b) (Js.hostAt 1735689599000) contentStore []
     <> exportSite "{path}" (fun b => b) (Js.hostAt 1735689600000) contentStore [].
Proof.
  split; [reflexivity|]. split; [reflexivity|].
  intros H. apply exportSite_year in H; [|discriminate].
  vm_compute in H. discriminate.
Qed.

End ExportFacts.

(** ** Links and references *)
Module LinkFacts.
Import JsFacts JsxFacts ThemeFacts Jsx Theme Content Renderer Site.

Lemma isPlaceholder_char (ph : string) :
  isPlaceholder ph = true -> exists c, In c sigils /\ Js.hasChar c ph = true.
Proof. unfold isPlaceholder. now rewrite existsb_exists. Qed.

Lemma isLiteral_char (v : string) (c : ascii) :
  isLiteral v = true -> In c sigils -> Js.hasChar c v = false.
Proof.
  unfold isLiteral. rewrite forallb_forall. intros H Hc.
  apply H in Hc. now apply negb_true_iff in Hc.
Qed.

(** No placeholder occurs in literal text. *)
Lemma literal_holds_no_placeholder (v ph : string) :
  isLiteral v = true -> isPlaceholder ph = true -> Js.includes v ph = false.
Proof.
  intros Hv Hp. apply isPlaceholder_char in Hp as (c & Hc & Hp).
  apply (includes_absent_char c); [assumption | now apply isLiteral_char].
Qed.

(** Interpolation leaves literal text as it is, whatever the page. *)
Lemma interpolate_literal (ph pagePath v : string) :
  isLiteral v = true -> isPlaceholder ph = true -> interpolate ph pagePath v = v.
Proof.
  intros Hv Hp. unfold interpolate. apply replaceAll_absent.
  now apply literal_holds_no_placeholder.
Qed.

(** C3, as amended.  The edit-link and feedback-link values of the theme
    configuration (the two link texts, the feedback label and the repository
    base) are literal text: interpolating the page path for a placeholder
    leaves each of them as it is, on every page. *)
Theorem C3_links_hold_no_placeholder (h : Js.Host) (ph pagePath : string) :
  isPlaceholder ph = true ->
  interpolate ph pagePath (editLink_content (config h)) = "Edit this page on GitHub →"
  /\ interpolate ph pagePath (feedback_content (config h)) = "Question? Give us feedback →"
  /\ interpolate ph pagePath (feedback_labels (config h)) = "feedback"
  /\ interpolate ph pagePath (docsRepositoryBase (config h))
     = "https://github.com/0xPlaygrounds/rig-docs".
Proof.
  intros Hp. repeat split; now apply interpolate_literal.
Qed.

(** C3, as amended, at the placeholder [{path}] and the quickstart page. *)
Lemma C3_links_hold_no_placeholder_witness :
  interpolate "{path}" "docs/0_quickstart" (editLink_content (config (Js.hostAt 0)))
    = "Edit this page on GitHub →"
  /\ interpolate "{path}" "docs/0_quickstart" (feedback_content (config (Js.hostAt 0)))
    = "Question? Give us feedback →"
  /\ interpolate "{path}" "docs/0_quickstart" (feedback_labels (config (Js.hostAt 0)))
    = "feedback"
  /\ interpolate "{path}" "docs/0_quickstart" (docsRepositoryBase (config (Js.hostAt 0)))
     = "https://github.com/0xPlaygrounds/rig-docs".
Proof.
  apply (C3_links_hold_no_placeholder (Js.hostAt 0) "{path}" "docs/0_quickstart").
  reflexivity.
Defined.

(** C3, as stated, fails: neither the edit-link text nor the feedback-link
    text holds a placeholder. *)
Lemma C3_no_placeholder_in_link_values :
  ~ exists ph : string,
      isPlaceholder ph = true
      /\ (Js.includes (editLink_content (config (Js.hostAt 0))) ph = true
          \/ Js.includes (feedback_content (config (Js.hostAt 0))) ph = true).
Proof.
  intros (ph & Hp & [H|H]);
    rewrite literal_holds_no_placeholder in H by (assumption || reflexivity);
    discriminate.
Qed.

(** The edit and feedback links read the same on every page. *)
Lemma pageLinks_text (h : Js.Host) (ph : string) (nav : NavigationTree)
    (doc : ContentDocument) :
  isPlaceholder ph = true ->
  map textContent (pageLinks (renderPage ph siteConfig (config h) nav doc))
  = ["Edit this page on GitHub →"; "Question? Give us feedback →"].
Proof.
  intros Hp. cbn.
  now rewrite !interpolate_literal.
Qed.

(** Every page refers to whatever the theme's head and logo refer to. *)
Lemma theme_refs_in_page (ph : string) (site : SiteConfig) (theme : DocsThemeConfig)
    (nav : NavigationTree) (doc : ContentDocument) :
  incl (refsOf (head theme) ++ refsOf (logo theme))
       (refsOf (renderPage ph site theme nav doc)).
Proof.
  intros r Hr. unfold renderPage. apply in_app_or in Hr as [Hr|Hr].
  - eapply refsOf_child; [left; reflexivity|].
    now apply refsOf_items.
  - eapply refsOf_child; [right; left; reflexivity|].
    eapply refsOf_child; [left; reflexivity|].
    eapply refsOf_child; [left; reflexivity|]. exact Hr.
Qed.

(** C2, evaluated on the quickstart page.  The file writes the base path
    [/rig-docs] into the plugin options and leaves the Next configuration
    without a [basePath]; the favicon and the two logo images are referred to
    by fixed absolute paths, so even with the links the renderer generates
    prefixed, three internal references lack the prefix, there and on every
    other page. *)
Theorem C2_theme_refs_lack_base_path (h : Js.Host) :
  base_path siteConfig = Some "/rig-docs"
  /\ basePath siteConfig = None
  /\ filter isInternal (refsOf (head (config h)) ++ refsOf (logo (config h)))
     = ["/favicon.ico"; "/rig-dark.svg"; "/rig-light.svg"]
  /\ internalRefs
       (renderPage "{path}" siteConfig (config h) (navigationTree contentStore) quickstart)
     = ["/favicon.ico"; "/rig-dark.svg"; "/rig-light.svg"; "/rig-docs/docs/0_quickstart"]
  /\ filter (fun r => negb (Js.startsWith r "/rig-docs"))
       (internalRefs
          (renderPage "{path}" siteConfig (config h) (navigationTree contentStore) quickstart))
     = ["/favicon.ico"; "/rig-dark.svg"; "/rig-light.svg"]
  /\ (forall (ph : string) (nav : NavigationTree) (doc : ContentDocument),
        incl ["/favicon.ico"; "/rig-dark.svg"; "/rig-light.svg"]
             (internalRefs (renderPage ph siteConfig (config h) nav doc))).
Proof.
  do 5 (split; [vm_compute; reflexivity|]).
  intros ph nav doc r Hr. unfold internalRefs. apply filter_In. split.
  - apply theme_refs_in_page.
    rewrite (head_host_independent h (Js.hostAt 0)),
      (logo_host_independent h (Js.hostAt 0)).
    repeat destruct Hr as [<-|Hr]; try contradiction; vm_compute; tauto.
  - repeat destruct Hr as [<-|Hr]; try contradiction; reflexivity.
Qed.

(** What the file sets the plugin options to, as the readers see them. *)
Example plugin_options_read :
  defaultShowCopyCode siteConfig = true
  /\ base_path siteConfig = Some "/rig-docs".
Proof. split; reflexivity. Qed.

End LinkFacts.

(** ** Assets in the output directory *)
Module AssetFacts.
Import JsxFacts ThemeFacts ExportFacts LinkFacts.
Import Jsx Theme Content Renderer Site Exporter.

(** What the export writes: the page files, and the input assets some page
    refers to. *)
Lemma exportSite_files ph optimize h docs assets (f : File) :
  In f (exportSite ph optimize h docs assets)
  <-> In f (map pageFile (renderAll ph siteConfig (config h) docs))
      \/ (In f assets
          /\ isReferenced (renderAll ph siteConfig (config h) docs) f = true).
Proof.
  rewrite exportSite_unfold, in_app_iff, filter_In. reflexivity.
Qed.

(** The pages of a non-empty site refer to the favicon and to both logo
    images, so the exporter counts an asset stored under one of these names
    as referenced. *)
Lemma theme_asset_referenced ph h docs (a : File) :
  docs <> [] ->
  In (file_path a) ["favicon.ico"; "rig-dark.svg"; "rig-light.svg"] ->
  isReferenced (renderAll ph siteConfig (config h) docs) a = true.
Proof.
  intros Hne Hp. destruct docs as [|d docs]; [congruence|].
  unfold isReferenced, renderAll. cbn [map existsb snd].
  apply orb_true_iff. left. apply existsb_exists.
  exists ("/" ++ file_path a). split; [|apply String.eqb_refl].
  apply theme_refs_in_page.
  rewrite (head_host_independent h (Js.hostAt 0)),
    (logo_host_independent h (Js.hostAt 0)).
  repeat destruct Hp as [<-|Hp]; try contradiction; vm_compute; tauto.
Qed.

(** C8.  The site configuration selects the static export and turns image
    optimization off, so an image asset the pages refer to (the favicon or a
    logo variant) is in the output directory with the bytes it has in the
    input, whatever the optimizer would make of it; and every file of the
    output is a page file or one of the input assets as it is. *)
Theorem C8_assets_copied_verbatim (ph : string) (optimize : string -> string)
    (h : Js.Host) (docs : list ContentDocument) (assets : list File) (a : File) :
  docs <> [] ->
  In a assets ->
  In (file_path a) ["favicon.ico"; "rig-dark.svg"; "rig-light.svg"] ->
  outputMode siteConfig = StaticExport
  /\ imagesOptimized siteConfig = false
  /\ In a (exportSite ph optimize h docs assets)
  /\ (forall f : File,
        In f (exportSite ph optimize h docs assets) ->
        In f (map pageFile (renderAll ph siteConfig (config h) docs))
        \/ In f assets).
Proof.
  intros Hne Ha Hp. split; [reflexivity|]. split; [reflexivity|]. split.
  - apply exportSite_files. right. split; [assumption|].
    now apply theme_asset_referenced.
  - intros f Hf. apply exportSite_files in Hf as [Hf|[Hf _]]; auto.
Qed.

(** C8, at the dark logo of the repository's site, next to an asset no page
    refers to and under an optimizer that would empty every file. *)
Lemma C8_assets_copied_verbatim_witness :
  outputMode siteConfig = StaticExport
  /\ imagesOptimized siteConfig = false
  /\ In {| file_path := "rig-dark.svg"; file_bytes := "<svg/>" |}
        (exportSite "{path}" (fun _ => "") (Js.hostAt 0) contentStore
           [{| file_path := "rig-dark.svg"; file_bytes := "<svg/>" |};
            {| file_path := "draft.png"; file_bytes := "PNG" |}])
  /\ (forall f : File,
        In f (exportSite "{path}" (fun _ => "") (Js.hostAt 0) contentStore
                [{| file_path := "rig-dark.svg"; file_bytes := "<svg/>" |};
                 {| file_path := "draft.png"; file_bytes := "PNG" |}]) ->
        In f (map pageFile (renderAll "{path}" siteConfig (config (Js.hostAt 0)) contentStore))
        \/ In f [{| file_path := "rig-dark.svg"; file_bytes := "<svg/>" |};
                 {| file_path := "draft.png"; file_bytes := "PNG" |}]).
Proof.
  apply (C8_assets_copied_verbatim "{path}" (fun _ => "") (Js.hostAt 0) contentStore
           [{| file_path := "rig-dark.svg"; file_bytes := "<svg/>" |};
            {| file_path := "draft.png"; file_bytes := "PNG" |}]
           {| file_path := "rig-dark.svg"; file_bytes := "<svg/>" |}).
  - discriminate.
  - left. reflexivity.
  - right. left. reflexivity.
Defined.

(** An asset no page refers to is left out of the output. *)
Example unreferenced_asset_left_out :
  map file_path
    (exportSite "{path}" (fun _ => "") (Js.hostAt 0) contentStore
       [{| file_path := "rig-dark.svg"; file_bytes := "<svg/>" |};
        {| file_path := "draft.png"; file_bytes := "PNG" |}])
  = ["docs/0_quickstart.html"; "rig-dark.svg"].
Proof. vm_compute. reflexivity. Qed.

End AssetFacts.

(** ** The footer's year *)
Module FooterFacts.
Import Js Jsx Theme Markup DateFacts.
Local Open Scope Z_scope.

Lemma TimeFromYear_mono (y y' : Z) : y <= y' -> TimeFromYear y <= TimeFromYear y'.
Proof.
  intros H. apply DayFromYear_mono in H. unfold TimeFromYear, msPerDay. lia.
Qed.

(** The local time of a host lies in the year [getFullYear] returns. *)
Lemma getFullYear_span (h : Host) :
  TimeFromYear (getFullYear h) <= localTime h < TimeFromYear (getFullYear h + 1).
Proof.
  unfold getFullYear, YearFromTime. fold (localTime h).
  pose proof (YearFromDay_spec (Day (localTime h))) as S.
  unfold TimeFromYear, Day, msPerDay in *.
  set (y := YearFromDay (localTime h / 86400000)) in *.
  generalize dependent (DayFromYear y). generalize (DayFromYear (y + 1)).
  intros d' d S. Z.div_mod_to_equations. lia.
Qed.

Lemma getFullYear_unique (h : Host) (y : Z) :
  TimeFromYear y <= localTime h < TimeFromYear (y + 1) -> getFullYear h = y.
Proof.
  intros H. unfold getFullYear, YearFromTime. fold (localTime h).
  apply YearFromDay_unique. unfold TimeFromYear, Day, msPerDay in *.
  generalize dependent (DayFromYear y). generalize (DayFromYear (y + 1)).
  intros d' d H. Z.div_mod_to_equations. lia.
Qed.

(** A year that starts after the local time of a host is later than the
    host's year. *)
Lemma getFullYear_lt (h : Host) (y : Z) :
  localTime h < TimeFromYear y -> getFullYear h < y.
Proof.
  intros H. pose proof (getFullYear_span h) as [Lo _].
  destruct (Z_lt_le_dec (getFullYear h) y) as [|G]; [assumption|].
  apply TimeFromYear_mono in G. lia.
Qed.

Lemma TimeFromYear_step (y : Z) :
  365 * msPerDay <= TimeFromYear (y + 1) - TimeFromYear y.
Proof.
  pose proof (DayFromYear_step y). unfold TimeFromYear, msPerDay. lia.
Qed.

(** X1.  On every host the copyright line of the footer reads the year
    [getFullYear] returns, between the copyright sign and the site name, and
    that year is the one calendar year whose span holds the host's local
    time. *)
Theorem footer_year_is_local_calendar_year (h : Host) (y : Z) :
  copyrightLine (config h)
  = Some ("© " ++ numberToString (getFullYear h) ++ " Rig Docs.")
  /\ (getFullYear h = y
      <-> TimeFromYear y <= localTime h < TimeFromYear (y + 1)).
Proof.
  split; [reflexivity|]. split.
  - intros <-. apply getFullYear_span.
  - apply getFullYear_unique.
Qed.

(** X2.  A build at a later local time never shows an earlier copyright
    year. *)
Theorem footer_year_never_goes_back (h h' : Host) :
  localTime h <= localTime h' -> getFullYear h <= getFullYear h'.
Proof.
  intros H. pose proof (getFullYear_span h') as [_ Hi].
  assert (L : getFullYear h < getFullYear h' + 1) by (apply getFullYear_lt; lia).
  lia.
Qed.

(** X2, at the last second of 2024 and the first of 2025 (UTC). *)
Lemma footer_year_never_goes_back_witness :
  getFullYear (hostAt 1735689599000) <= getFullYear (hostAt 1735689600000).
Proof.
  apply (footer_year_never_goes_back (hostAt 1735689599000) (hostAt 1735689600000)).
  vm_compute. discriminate.
Defined.

(** X3.  Two hosts that build at the same instant in time zones at most a
    day apart show copyright years that differ by at most one. *)
Theorem footer_year_across_time_zones (h h' : Host) :
  now h = now h' ->
  Z.abs (localTZA h' - localTZA h) <= msPerDay ->
  Z.abs (getFullYear h' - getFullYear h) <= 1.
Proof.
  intros Hn Hz.
  assert (D : Z.abs (localTime h' - localTime h) <= msPerDay)
    by (unfold localTime; rewrite Hn; replace (now h' + localTZA h' - (now h' + localTZA h)) with (localTZA h' - localTZA h) by lia; exact Hz).
  pose proof (getFullYear_span h) as [Lo Hi].
  pose proof (getFullYear_span h') as [Lo' Hi'].
  pose proof (TimeFromYear_step (getFullYear h + 1)) as St.
  pose proof (TimeFromYear_step (getFullYear h' + 1)) as St'.
  replace (getFullYear h + 1 + 1) with (getFullYear h + 2) in St by lia.
  replace (getFullYear h' + 1 + 1) with (getFullYear h' + 2) in St' by lia.
  assert (A : getFullYear h' < getFullYear h + 2)
    by (apply getFullYear_lt; unfold msPerDay in *; lia).
  assert (B : getFullYear h < getFullYear h' + 2)
    by (apply getFullYear_lt; unfold msPerDay in *; lia).
  lia.
Qed.

(** X3, one second before the new year in UTC, on a host on UTC and on one
    an hour to the east. *)
Lemma footer_year_across_time_zones_witness :
  Z.abs (getFullYear {| now := 1735689599000; localTZA := 3600000 |}
         - getFullYear {| now := 1735689599000; localTZA := 0 |}) <= 1.
Proof.
  apply (footer_year_across_time_zones
           {| now := 1735689599000; localTZA := 0 |}
           {| now := 1735689599000; localTZA := 3600000 |}).
  - reflexivity.
  - vm_compute. discriminate.
Defined.

End FooterFacts.

(** ** The theme's markup and the pages' outline *)
Module MarkupFacts.
Import Js Jsx Theme Content Markup.

(** Reasoning about the theme for every host: the host only enters through
    the year, which is left as a variable. *)
Ltac any_year h :=
  unfold themeElements, themeRefs, config;
  cbn [head logo footer_content project_link chat_link docsRepositoryBase];
  generalize (getFullYear h); intros ?.

(** X4.  On every host, each target the theme configuration names is an
    absolute path inside the site or an https address, and the link that
    opens a new tab (there is one, in the footer) carries
    [rel="noreferrer"]. *)
Theorem theme_links_are_secure (h : Host) :
  Forall (fun r => isSecure r = true) (themeRefs (config h))
  /\ Forall (fun e => opensNewTab e = true -> relHas "noreferrer" e = true)
       (themeElements (config h))
  /\ existsb opensNewTab (themeElements (config h)) = true.
Proof.
  any_year h. split; [|split].
  - vm_compute. repeat constructor.
  - vm_compute. repeat constructor; intros H; first [discriminate H | reflexivity].
  - vm_compute. reflexivity.
Qed.

(** X5.  On every host, each image of the theme configuration has a
    non-empty alternative text, and the two logo variants agree on everything
    but [src] and [className]: whichever is displayed has the same height and
    the same alternative text. *)
Theorem theme_images_have_alt (h : Host) :
  Forall (fun e => isImage e = true -> hasAlt e = true) (themeElements (config h))
  /\ map (attrsWithout ["src"; "className"]) (imageElements (logo (config h)))
     = [[("style", AStyle [("height", "2.5rem")]); ("alt", AStr "Rig Logo")];
        [("style", AStyle [("height", "2.5rem")]); ("alt", AStr "Rig Logo")]].
Proof.
  split; [|reflexivity].
  any_year h. vm_compute.
  repeat constructor; intros H; first [discriminate H | reflexivity].
Qed.

(** X6.  Every page of the content store has a well-formed outline (no
    heading above level 2, none more than one level below the heading before
    it), and each of its code blocks names a language. *)
Theorem content_outline_and_languages :
  Forall
    (fun d =>
       outlineOk d = true
       /\ Forall (fun info => language info <> None) (codeBlocks d))
    contentStore.
Proof.
  repeat constructor; discriminate.
Qed.

Example outline_skips_level : outlineFrom 1 [2; 4] = false.
Proof. reflexivity. Qed.

Example language_of_bare_fence : language "" = None.
Proof. reflexivity. Qed.

End MarkupFacts.
